(** * JSON iterator transformer of flytekit: a shallow embedding

    Source: [flytekit/types/iterator/json_iterator.py], together with the
    parts of [flytekit.models], [flytekit.types.file], [jsonlines] and the
    storage layer that the transformer calls.

    Conventions.
    - A Python [Iterator[JSON]] handed to the transformer is the finite list
      of the values it yields, in order.
    - A JSON Lines file is the list of its lines, and a line is identified
      with the JSON document it holds ([json.dumps] and [json.loads] are
      taken as inverse to each other on the values that [json.dumps]
      accepts; the values it refuses are modelled, see [json]).
    - A [str] is the text it holds, which can always be written to a
      file.
    - Code that raises returns [inl e]; code that mutates storage threads a
      [FlyteContext] through, and an exception keeps the mutations done
      before it was raised, as in Python. *)

From Stdlib Require Import PrimFloat.
From stdpp Require Import gmap strings list fin_maps countable pretty.

Open Scope string_scope.
#[local] Set Warnings "-register-all".

(* ===================================================================== *)
(** ** Host values and host types                                         *)
(* ===================================================================== *)

(** [JSON = dict[str, JSON] | list[JSON] | str | int | float | bool | None]
    (json_iterator.py, lines 35-40). A [dict] keeps insertion order, hence
    the association list. *)
Inductive JSON : Type :=
  | JNone
  | JBool (b : bool)
  | JInt (n : Z)
  | JFloat (x : float)
  | JStr (s : string)
  | JList (l : list JSON)
  | JDict (d : list (string * JSON)).

(** Python type annotations: a class or alias named by its identifier, or a
    subscripted generic such as [Iterator[JSON]] or [typing.List[MyInt]]. *)
Inductive PyType : Type :=
  | Class (name : string)
  | Subscript (origin : string) (args : list PyType).

(** The alias [JSON] as a type object, and the transformer's own type. *)
Definition JSON_t : PyType := Class "JSON".
Definition Iterator_JSON : PyType := Subscript "Iterator" [JSON_t].

(** Host types are dictionary keys: they are hashable and compared
    structurally. *)
Fixpoint PyType_to_tree (t : PyType) : gen_tree string :=
  match t with
  | Class name => GenLeaf name
  | Subscript origin args => GenNode 0 (GenLeaf origin :: List.map PyType_to_tree args)
  end.

Fixpoint PyType_of_tree (g : gen_tree string) : PyType :=
  match g with
  | GenLeaf name => Class name
  | GenNode _ (GenLeaf origin :: gs) => Subscript origin (List.map PyType_of_tree gs)
  | GenNode _ _ => Class ""
  end.

Lemma PyType_nested_ind (P : PyType -> Prop) :
  (forall name, P (Class name)) ->
  (forall origin args, Forall P args -> P (Subscript origin args)) ->
  forall t, P t.
Proof.
  intros Hclass Hsub. fix IH 1. intros [name | origin args].
  - apply Hclass.
  - apply Hsub. induction args as [| a args IHargs]; constructor; [apply IH | exact IHargs].
Qed.

Lemma PyType_of_to_tree (t : PyType) : PyType_of_tree (PyType_to_tree t) = t.
Proof.
  induction t as [name | origin args IHargs] using PyType_nested_ind; [done |].
  cbn. f_equal. induction IHargs as [| a args Ha _ IH]; [done |].
  cbn. by rewrite Ha, IH.
Qed.

#[global] Instance PyType_eq_dec : EqDecision PyType.
Proof.
  intros x y. destruct (decide (PyType_to_tree x = PyType_to_tree y)) as [E | N].
  - left. rewrite <- (PyType_of_to_tree x), <- (PyType_of_to_tree y). by rewrite E.
  - right. intros ->. by apply N.
Defined.

#[global] Instance PyType_countable : Countable PyType :=
  inj_countable' PyType_to_tree PyType_of_tree PyType_of_to_tree.

(* ===================================================================== *)
(** ** flytekit.models: wire types and literals                           *)
(* ===================================================================== *)

Module BlobType.

(** [BlobType.BlobDimensionality] *)
Inductive BlobDimensionality : Type := SINGLE | MULTIPART.

Record t : Type := mk { format : string; dimensionality : BlobDimensionality }.

#[global] Instance BlobDimensionality_eq_dec : EqDecision BlobDimensionality.
Proof. solve_decision. Defined.

End BlobType.

Inductive SimpleType : Type :=
  | NONE | INTEGER | FLOAT | STRING | BOOLEAN | DATETIME | DURATION
  | BINARY | ERROR | STRUCT.

(** [LiteralType]: every field defaults to [None] in the constructor; the
    transformer builds and inspects the [blob] field only. *)
Inductive LiteralType : Type := mkLiteralType {
  simple : option SimpleType;
  collection_type : option LiteralType;
  map_value_type : option LiteralType;
  blob : option BlobType.t
}.

Definition LiteralType_blob (b : BlobType.t) : LiteralType :=
  mkLiteralType None None None (Some b).

Definition LiteralType_simple (s : SimpleType) : LiteralType :=
  mkLiteralType (Some s) None None None.

Record Primitive : Type := mkPrimitive {
  integer : option Z;
  string_value : option string;
  boolean : option bool
}.

Record BlobMetadata : Type := mkBlobMetadata { type : BlobType.t }.

(** A [Blob] is a reference: metadata and a URI, nothing else. *)
Record Blob : Type := mkBlob { metadata : BlobMetadata; uri : string }.

(** [Scalar]: [scalar_blob] is the attribute [blob]. *)
Record Scalar : Type := mkScalar {
  primitive : option Primitive;
  scalar_blob : option Blob
}.

Inductive Literal : Type := mkLiteral {
  scalar : option Scalar;
  collection : option (list Literal);
  map : option (list (string * Literal))
}.

Definition Scalar_blob (b : Blob) : Scalar := mkScalar None (Some b).

Definition Scalar_primitive (p : Primitive) : Scalar := mkScalar (Some p) None.

Definition Literal_scalar (s : Scalar) : Literal := mkLiteral (Some s) None None.

Definition Literal_collection (l : list Literal) : Literal :=
  mkLiteral None (Some l) None.

(* ===================================================================== *)
(** ** Exceptions                                                         *)
(* ===================================================================== *)

(** The pieces of an f-string: literal text and the values interpolated. *)
Inductive fragment : Type :=
  | Text (s : string)
  | ReprSelf
  | ReprLiteral (lv : Literal)
  | ReprLiteralType (lt : LiteralType)
  | ReprPyType (t : PyType).

(** The exceptions met on the way: Python's own, [jsonlines]'
    [InvalidLineError], flytekit's [TypeTransformerFailedError], and the
    registry's [UnsupportedTypeError]. *)
Inductive exn : Type :=
  | ValueError (msg : list fragment)
  | TypeTransformerFailedError (msg : list fragment)
  | StopIteration (msg : list fragment)
  | AttributeError
  | EOFError
  | RuntimeError (msg : list fragment)
  | InvalidLineError (msg : list fragment)
  | FileNotFoundError (path : string)
  | UnsupportedTypeError (host_type : PyType)
  | RecursionError (msg : list fragment).

Definition is_StopIteration (e : exn) : bool :=
  match e with StopIteration _ => true | _ => false end.

(* ===================================================================== *)
(** ** json: what the encoder refuses                                     *)
(* ===================================================================== *)

(** The interpreter settings that decide whether [json.dumps] accepts a
    JSON value: [sys.get_int_max_str_digits()] (4300 unless changed, 0 for
    no limit), and how many containers the encoder may still enter before
    the recursion limit is hit. *)
Record sys_limits : Type := mkSysLimits {
  int_max_str_digits : nat;
  recursion_limit : nat
}.

Module json.

(** An [int] is refused when it has more decimal digits than the limit. *)
Definition too_many_digits (max_digits : nat) (n : Z) : bool :=
  negb (Nat.eqb max_digits 0) && (10 ^ Z.of_nat max_digits <=? Z.abs n)%Z.

(** The exception the encoder raises on a value, if any. It walks the
    value from left to right: an [int] is turned into its decimal digits,
    which the digit limit may refuse with [ValueError]; entering a [list]
    or a [dict] uses up one level of recursion, and [RecursionError] is
    raised when none is left. [None], booleans, floats and strings are
    always encoded. The text of the [ValueError], which differs between
    versions of the interpreter, is abridged. *)
Fixpoint encode_error (max_digits budget : nat) (v : JSON) {struct v} : option exn :=
  match v with
  | JInt n =>
      if too_many_digits max_digits n
      then Some (ValueError [Text "Exceeds the limit for integer string conversion"])
      else None
  | JList l =>
      match budget with
      | O => Some (RecursionError
                     [Text "maximum recursion depth exceeded while encoding a JSON object"])
      | S b =>
          (fix items (l : list JSON) : option exn :=
             match l with
             | [] => None
             | x :: rest =>
                 match encode_error max_digits b x with
                 | Some e => Some e
                 | None => items rest
                 end
             end) l
      end
  | JDict d =>
      match budget with
      | O => Some (RecursionError
                     [Text "maximum recursion depth exceeded while encoding a JSON object"])
      | S b =>
          (fix items (d : list (string * JSON)) : option exn :=
             match d with
             | [] => None
             | (_, x) :: rest =>
                 match encode_error max_digits b x with
                 | Some e => Some e
                 | None => items rest
                 end
             end) d
      end
  | _ => None
  end.

Definition dumps_error (sys : sys_limits) (v : JSON) : option exn :=
  encode_error (int_max_str_digits sys) (recursion_limit sys) v.

End json.

(* ===================================================================== *)
(** ** Storage and the state-and-exception monad                          *)
(* ===================================================================== *)

(** The context a conversion runs in: the storage behind
    [ctx.file_access] (URI to lines), the supply of random file names that
    [FlyteFile.new_remote_file] draws from, and the settings of the
    interpreter it runs on. *)
Record FlyteContext : Type := mkFlyteContext {
  file_access : gmap string (list JSON);
  random_paths : nat -> string;
  paths_drawn : nat;
  py_sys : sys_limits
}.

Definition set_file_access (fa : gmap string (list JSON)) (ctx : FlyteContext)
    : FlyteContext :=
  mkFlyteContext fa (random_paths ctx) (paths_drawn ctx) (py_sys ctx).

Definition M (A : Type) : Type := FlyteContext -> (exn + A) * FlyteContext.

#[global] Instance M_ret : MRet M := fun A a ctx => (inr a, ctx).

#[global] Instance M_bind : MBind M := fun A B f m ctx =>
  match m ctx with
  | (inl e, ctx') => (inl e, ctx')
  | (inr a, ctx') => f a ctx'
  end.

Definition raise {A : Type} (e : exn) : M A := fun ctx => (inl e, ctx).

Ltac run_M := unfold mbind, M_bind, mret, M_ret, raise; cbn.

(** Modelled from the spec: [flytekit.types.file.FlyteFile] is not in the
    sources at hand. The spec gives the storage collaborator [new_uri] and
    [open_for_write]: [new_remote_file] draws the next random path, and
    opening it for writing creates the file, or truncates it. Writes go to
    the file as they are made. *)
Module FlyteFile.

Definition new_remote_file : M string := fun ctx =>
  (inr (random_paths ctx (paths_drawn ctx)),
   mkFlyteContext (file_access ctx) (random_paths ctx) (S (paths_drawn ctx))
                  (py_sys ctx)).

Definition open_w (path : string) : M string := fun ctx =>
  (inr path, set_file_access (<[path := []]> (file_access ctx)) ctx).

Definition fp_write (fp : string) (line : JSON) : M unit := fun ctx =>
  (inr tt,
   set_file_access
     (<[fp := (default [] (file_access ctx !! fp) ++ [line])%list]>
        (file_access ctx)) ctx).

End FlyteFile.

(** [fs.open(uri, "r")] on the filesystem that
    [ctx.file_access.get_filesystem_for_path(uri)] returns: the lines of
    the file, or [FileNotFoundError] when storage has no file there. *)
Definition fs_open_r (path : string) : M (list JSON) := fun ctx =>
  match file_access ctx !! path with
  | Some lines => (inr lines, ctx)
  | None => (inl (FileNotFoundError path), ctx)
  end.

(* ===================================================================== *)
(** ** jsonlines                                                          *)
(* ===================================================================== *)

Module jsonlines.

(** [jsonlines.Writer(fp)]: [write] dumps the value and writes the line to
    [fp]. When the encoder refuses the value its exception leaves through
    [write] and nothing is written. *)
Record Writer : Type := mkWriter { w_fp : string }.

Definition write (w : Writer) (obj : JSON) : M unit := fun ctx =>
  match json.dumps_error (py_sys ctx) obj with
  | Some e => (inl e, ctx)
  | None => FlyteFile.fp_write (w_fp w) obj ctx
  end.

(** [jsonlines.Reader(fp)]: the lines of [fp] not read yet, and the
    [_closed] flag. *)
Record Reader : Type := mkReader { r_fp : list JSON; r_closed : bool }.

Definition Reader_of (fp : list JSON) : Reader := mkReader fp false.

(** [Reader.read(allow_none=...)]: a closed reader refuses, the end of the
    file is [EOFError], and a line holding [null] is invalid unless
    [allow_none] is set. *)
Definition read (allow_none : bool) (r : Reader) : (exn + JSON) * Reader :=
  if r_closed r then (inl (RuntimeError [Text "reader is closed"]), r)
  else match r_fp r with
       | [] => (inl EOFError, r)
       | v :: rest =>
           let r' := mkReader rest (r_closed r) in
           match v with
           | JNone =>
               if allow_none then (inr JNone, r')
               else (inl (InvalidLineError [Text "line contains null value"]), r')
           | _ => (inr v, r')
           end
       end.

Definition close (r : Reader) : Reader := mkReader (r_fp r) true.

End jsonlines.

(* ===================================================================== *)
(** ** JSONIterator (json_iterator.py, lines 17-30)                       *)
(* ===================================================================== *)

Module JSONIterator.

(** [_reader] is the reader; [_reader_iter] is the generator made by
    [reader.iter()]. The generator reads from that same reader, so its own
    state is only whether it has finished. *)
Record t : Type := mk { _reader : jsonlines.Reader; _reader_iter_done : bool }.

Definition __init__ (reader : jsonlines.Reader) : t := mk reader false.

(** [next(self._reader_iter)], with [reader.iter()] called without
    arguments: [allow_none] and [skip_invalid] are off. A finished
    generator raises [StopIteration]; [EOFError] ends it silently; any
    other exception leaves through it and ends it too. *)
Definition next_reader_iter (self : t) : (exn + JSON) * t :=
  if _reader_iter_done self then (inl (StopIteration []), self)
  else match jsonlines.read false (_reader self) with
       | (inr v, r') => (inr v, mk r' false)
       | (inl EOFError, r') => (inl (StopIteration []), mk r' true)
       | (inl e, r') => (inl e, mk r' true)
       end.

Definition __next__ (self : t) : (exn + JSON) * t :=
  match next_reader_iter self with
  | (inr v, self') => (inr v, self')
  | (inl e, self') =>
      if is_StopIteration e
      then (inl (StopIteration [Text "File handler is exhausted"]),
            mk (jsonlines.close (_reader self')) (_reader_iter_done self'))
      else (inl e, self')
  end.

End JSONIterator.

(* ===================================================================== *)
(** ** JSONIteratorTransformer (json_iterator.py, lines 43-107)           *)
(* ===================================================================== *)

Module JSONIteratorTransformer.

Definition JSON_ITERATOR_FORMAT : string := "JSONL".

Definition get_literal_type (t : PyType) : LiteralType :=
  LiteralType_blob (BlobType.mk JSON_ITERATOR_FORMAT BlobType.SINGLE).

(** The [for] loop of [to_literal]: every value is written, and the flag
    [empty] is cleared after each write. *)
Fixpoint write_loop (writer : jsonlines.Writer) (python_val : list JSON)
    (empty : bool) : M bool :=
  match python_val with
  | [] => mret empty
  | json_val :: rest =>
      _ ← jsonlines.write writer json_val;
      write_loop writer rest false
  end.

Definition to_literal (python_val : list JSON) (python_type : PyType)
    (expected : LiteralType) : M Literal :=
  remote_path ← FlyteFile.new_remote_file;
  fp ← FlyteFile.open_w remote_path;
  empty ← write_loop (jsonlines.mkWriter fp) python_val true;
  if (empty : bool) then raise (ValueError [Text "The iterator is empty."])
  else
    let meta := mkBlobMetadata (BlobType.mk JSON_ITERATOR_FORMAT BlobType.SINGLE) in
    mret (Literal_scalar (Scalar_blob (mkBlob meta remote_path))).

(** [lv.scalar.blob.uri]: reading an attribute of [None] raises
    [AttributeError]. *)
Definition lv_scalar_blob_uri (lv : Literal) : exn + string :=
  match scalar lv with
  | None => inl AttributeError
  | Some s => match scalar_blob s with
              | None => inl AttributeError
              | Some b => inr (uri b)
              end
  end.

Definition to_python_value (lv : Literal) (expected_python_type : PyType)
    : M JSONIterator.t :=
  match lv_scalar_blob_uri lv with
  | inl AttributeError =>
      raise (TypeTransformerFailedError
               [Text "Cannot convert from "; ReprLiteral lv; Text " to ";
                ReprPyType expected_python_type])
  | inl e => raise e
  | inr uri =>
      fp ← fs_open_r uri;
      mret (JSONIterator.__init__ (jsonlines.Reader_of fp))
  end.

Definition guess_python_type (literal_type : LiteralType) : exn + PyType :=
  if match blob literal_type with
     | Some b =>
         bool_decide (BlobType.dimensionality b = BlobType.SINGLE)
         && bool_decide (BlobType.format b = JSON_ITERATOR_FORMAT)
     | None => false
     end
  then inr JSON_t
  else inl (ValueError [Text "Transformer "; ReprSelf;
                        Text " cannot reverse "; ReprLiteralType literal_type]).

End JSONIteratorTransformer.

(** What the loop of [to_literal] meets on a list of values: the exception
    of the first value the encoder refuses, if there is one, and the
    values written before it. *)
Fixpoint write_failure (sys : sys_limits) (python_val : list JSON) : option exn :=
  match python_val with
  | [] => None
  | json_val :: rest =>
      match json.dumps_error sys json_val with
      | Some e => Some e
      | None => write_failure sys rest
      end
  end.

Fixpoint written (sys : sys_limits) (python_val : list JSON) : list JSON :=
  match python_val with
  | [] => []
  | json_val :: rest =>
      match json.dumps_error sys json_val with
      | Some _ => []
      | None => json_val :: written sys rest
      end
  end.

(** The literal [to_literal] builds for the file at [path]. *)
Definition JSONL_blob (path : string) : Literal :=
  Literal_scalar
    (Scalar_blob
       (mkBlob (mkBlobMetadata (BlobType.mk "JSONL" BlobType.SINGLE)) path)).

(* ===================================================================== *)
(** ** Driving an iterator                                                *)
(* ===================================================================== *)

Module Drive.

(** [list(it)]: call [__next__] until [StopIteration]; any other exception
    leaves through. [None] when the fuel runs out first. *)
Fixpoint collect (fuel : nat) (it : JSONIterator.t)
    : option ((exn + list JSON) * JSONIterator.t) :=
  match fuel with
  | O => None
  | S n =>
      match JSONIterator.__next__ it with
      | (inr v, it') =>
          match collect n it' with
          | Some (inr vs, it'') => Some (inr (v :: vs), it'')
          | other => other
          end
      | (inl e, it') =>
          if is_StopIteration e then Some (inr [], it') else Some (inl e, it')
      end
  end.

(** The state of an iterator after [k] calls of [__next__]. *)
Fixpoint advance (k : nat) (it : JSONIterator.t) : JSONIterator.t :=
  match k with
  | O => it
  | S n => advance n (JSONIterator.__next__ it).2
  end.

(** The reader is closed only by [__next__], and only once the generator
    has finished. *)
Definition closed_only_when_done (it : JSONIterator.t) : Prop :=
  jsonlines.r_closed (JSONIterator._reader it) = true ->
  JSONIterator._reader_iter_done it = true.

End Drive.

(* ===================================================================== *)
(** ** TypeEngine: the registry                                           *)
(* ===================================================================== *)

(** Modelled from the spec: [flytekit.core.type_engine] is not in the
    sources at hand; only calls of [TypeEngine.register] and the dictionary
    [TypeEngine._REGISTRY], keyed by host type, are. The spec's registry
    holds entries [(host_type_key, transformer_instance, is_default)] keyed
    first by exact type, second by generic origin, with one wildcard slot;
    a later registration for an exact key replaces the earlier one except
    for protected built-ins marked non-overridable, and a registration
    conflict is not an error. [resolve] tries the exact type, then the
    generic origin, then the ancestors in method-resolution order, then the
    wildcard. *)
Module TypeEngine.

(** [TypeTransformer(name, t)] *)
Record TypeTransformer : Type := mkTypeTransformer {
  name : string;
  python_type : PyType
}.

Record entry : Type := mkEntry {
  transformer_instance : TypeTransformer;
  is_default : bool;
  non_overridable : bool
}.

Record Registry : Type := mkRegistry {
  _REGISTRY : gmap PyType entry;
  by_origin : gmap string entry;
  wildcard : option entry;
  mro : PyType -> list PyType
}.

Definition register (transformer : TypeTransformer) (r : Registry) : Registry :=
  let publish :=
    mkRegistry (<[python_type transformer := mkEntry transformer false false]>
                  (_REGISTRY r))
               (by_origin r) (wildcard r) (mro r) in
  match _REGISTRY r !! python_type transformer with
  | Some e => if non_overridable e then r else publish
  | None => publish
  end.

Definition unregister (host_type : PyType) (r : Registry) : Registry :=
  mkRegistry (delete host_type (_REGISTRY r)) (by_origin r) (wildcard r) (mro r).

(** A change made to the registry after the fact, and the exact key it
    touches. *)
Inductive change : Type :=
  | Register (transformer : TypeTransformer)
  | Unregister (host_type : PyType).

Definition change_key (c : change) : PyType :=
  match c with
  | Register transformer => python_type transformer
  | Unregister host_type => host_type
  end.

Definition apply_change (r : Registry) (c : change) : Registry :=
  match c with
  | Register transformer => register transformer r
  | Unregister host_type => unregister host_type r
  end.

Definition origin_of (host_type : PyType) : option string :=
  match host_type with
  | Class _ => None
  | Subscript origin _ => Some origin
  end.

Definition resolve (host_type : PyType) (r : Registry) : exn + TypeTransformer :=
  match _REGISTRY r !! host_type with
  | Some e => inr (transformer_instance e)
  | None =>
      match origin_of host_type ≫= (λ o, by_origin r !! o) with
      | Some e => inr (transformer_instance e)
      | None =>
          match head (omap (λ a, _REGISTRY r !! a) (mro r host_type)) with
          | Some e => inr (transformer_instance e)
          | None =>
              match wildcard r with
              | Some e => inr (transformer_instance e)
              | None => inl (UnsupportedTypeError host_type)
              end
          end
      end
  end.

End TypeEngine.

(** [JSONIteratorTransformer()] as its [__init__] builds it, and the
    registration that ends the module (line 110). *)
Definition JSONIteratorTransformer_instance : TypeEngine.TypeTransformer :=
  TypeEngine.mkTypeTransformer "JSON Iterator" Iterator_JSON.

Definition import_json_iterator (r : TypeEngine.Registry) : TypeEngine.Registry :=
  TypeEngine.register JSONIteratorTransformer_instance r.

(* ===================================================================== *)
(** ** Concrete contexts, literals and registries                         *)
(* ===================================================================== *)

Module Examples.

Definition raw_output (n : nat) : string := "s3://my-s3-bucket/data/" +:+ pretty n.

(** The limits of a CPython interpreter nobody has tuned. *)
Definition cpython_defaults : sys_limits := mkSysLimits 4300 1000.

Definition empty_storage : FlyteContext :=
  mkFlyteContext ∅ raw_output 0 cpython_defaults.

Definition one_file : FlyteContext :=
  mkFlyteContext {[ "s3://my-s3-bucket/data/0" := [JInt 1] ]} raw_output 1
                 cpython_defaults.

Definition two_lines : FlyteContext :=
  mkFlyteContext {[ "s3://my-s3-bucket/data/0" := [JInt 1; JStr "a"] ]} raw_output 1
                 cpython_defaults.


Definition dangling : Literal := JSONL_blob "s3://my-s3-bucket/data/missing".

(** [Literal(scalar=Scalar(primitive=Primitive(integer=10)))], as in
    tests/flytekit/unit/core/test_list.py. *)
Definition ten : Literal :=
  Literal_scalar (Scalar_primitive (mkPrimitive (Some 10%Z) None None)).

Definition records : list JSON :=
  [JDict [("a", JStr "b")]; JList [JInt 1; JNone]; JInt 2].

(** [MyIntAsyncTransformer] of test_list.py, and a second transformer for
    the same host type. *)
Definition MyInt : PyType := Class "MyInt".

Definition MyIntAsyncTransformer : TypeEngine.TypeTransformer :=
  TypeEngine.mkTypeTransformer "MyAsyncInt" MyInt.

Definition MyIntOverride : TypeEngine.TypeTransformer :=
  TypeEngine.mkTypeTransformer "MyIntOverride" MyInt.

Definition no_transformers : TypeEngine.Registry :=
  TypeEngine.mkRegistry ∅ ∅ None (fun _ => []).

(** A registry whose default set holds a built-in for [int] that is marked
    non-overridable, and a transformer that wants the same key. *)
Definition builtin_int : TypeEngine.entry :=
  TypeEngine.mkEntry (TypeEngine.mkTypeTransformer "int" (Class "int")) true true.

Definition defaults : TypeEngine.Registry :=
  TypeEngine.mkRegistry {[ Class "int" := builtin_int ]} ∅ None (fun _ => []).

Definition int_override : TypeEngine.TypeTransformer :=
  TypeEngine.mkTypeTransformer "PluginInt" (Class "int").

(** A third transformer for [MyInt]. *)
Definition MyIntThird : TypeEngine.TypeTransformer :=
  TypeEngine.mkTypeTransformer "MyIntThird" MyInt.

End Examples.

(* ===================================================================== *)
(** ** tests/flytekit/unit/core/test_list.py: MyInt and its transformer   *)
(* ===================================================================== *)

Module TestList.

(** [MyInt(x)]: [val] is what the constructor was given, an [int], or
    [None] when [async_to_python_value] builds it from a primitive that
    holds no integer. *)
Record MyInt : Type := mkMyInt { val : option Z }.

(** What a [MyInt] may be compared with: another [MyInt], or a value of
    some other class. *)
Inductive PyObject : Type :=
  | Obj_MyInt (m : MyInt)
  | Obj_JSON (j : JSON).

(** [MyInt.__eq__] (lines 24-27) *)
Definition __eq__ (self : MyInt) (other : PyObject) : bool :=
  match other with
  | Obj_MyInt o => bool_decide (val o = val self)
  | Obj_JSON _ => false
  end.

(** [MyIntAsyncTransformer] (lines 30-58). A coroutine is the value it
    returns once awaited; printing and sleeping leave no trace in it. *)
Module MyIntAsyncTransformer.

Definition get_literal_type (t : PyType) : LiteralType :=
  LiteralType_simple INTEGER.

Definition async_to_literal (python_val : MyInt) (python_type : PyType)
    (expected : LiteralType) : Literal :=
  Literal_scalar (Scalar_primitive (mkPrimitive (val python_val) None None)).

(** [lv.scalar.primitive.integer]: nothing catches the [AttributeError]. *)
Definition async_to_python_value (lv : Literal) (expected_python_type : PyType)
    : exn + MyInt :=
  match scalar lv with
  | None => inl AttributeError
  | Some s => match primitive s with
              | None => inl AttributeError
              | Some p => inr (mkMyInt (integer p))
              end
  end.

Definition guess_python_type (literal_type : LiteralType) : PyType :=
  Class "MyInt".

End MyIntAsyncTransformer.

End TestList.

(* ===================================================================== *)
(** * Properties                                                          *)
(* ===================================================================== *)

(** ** Encoding: what [to_literal] returns and what it leaves in storage  *)

Section Encode.
Import JSONIteratorTransformer.

Lemma set_file_access_id ctx : set_file_access (file_access ctx) ctx = ctx.
Proof. by destruct ctx. Qed.


Lemma written_all sys (python_val : list JSON) :
  write_failure sys python_val = None -> written sys python_val = python_val.
Proof.
  induction python_val as [| v rest IH]; [done |]. cbn.
  destruct (json.dumps_error sys v); [discriminate |]. intros Hrest. by rewrite IH.
Qed.

(** The loop appends the values to the file, in order, up to the first one
    the encoder refuses, whose exception it lets through; otherwise it
    returns the flag, still set only if nothing was written. *)
Lemma write_loop_run fp (python_val : list JSON) empty ctx old :
  file_access ctx !! fp = Some old ->
  write_loop (jsonlines.mkWriter fp) python_val empty ctx
  = (match write_failure (py_sys ctx) python_val with
     | Some e => inl e
     | None => inr (match python_val with [] => empty | _ => false end)
     end,
     set_file_access
       (<[fp := (old ++ written (py_sys ctx) python_val)%list]> (file_access ctx)) ctx).
Proof.
  revert empty ctx old.
  induction python_val as [| json_val rest IH]; intros empty ctx old Hfp.
  - cbn. rewrite app_nil_r, insert_id by done. by rewrite set_file_access_id.
  - cbn. run_M. unfold jsonlines.write. cbn.
    destruct (json.dumps_error (py_sys ctx) json_val) as [e |] eqn:Hdumps.
    + rewrite app_nil_r, insert_id by done. by rewrite set_file_access_id.
    + unfold FlyteFile.fp_write. rewrite Hfp. cbn.
      erewrite IH by (cbn; apply lookup_insert_eq).
      cbn. unfold set_file_access. cbn.
      rewrite insert_insert_eq, <- app_assoc. cbn.
      destruct (write_failure (py_sys ctx) rest); [done |]. by destruct rest.
Qed.

(** One run of [to_literal]: the path drawn, the result, the storage. *)
Lemma to_literal_run python_val python_type expected ctx :
  let path := random_paths ctx (paths_drawn ctx) in
  to_literal python_val python_type expected ctx
  = (match write_failure (py_sys ctx) python_val with
     | Some e => inl e
     | None =>
         match python_val with
         | [] => inl (ValueError [Text "The iterator is empty."])
         | _ => inr (JSONL_blob path)
         end
     end,
     mkFlyteContext (<[path := written (py_sys ctx) python_val]> (file_access ctx))
                    (random_paths ctx) (S (paths_drawn ctx)) (py_sys ctx)).
Proof.
  intros path. unfold to_literal, FlyteFile.new_remote_file, FlyteFile.open_w.
  run_M. fold path.
  erewrite write_loop_run by (cbn; apply lookup_insert_eq).
  cbn. unfold set_file_access. cbn. rewrite insert_insert_eq.
  destruct (write_failure (py_sys ctx) python_val); [done |]. by destruct python_val.
Qed.




(** C7. A literal returned by [to_literal] is a scalar blob: metadata
    (format JSONL, dimensionality SINGLE) and the URI of the file just
    written. Its primitive, collection and map parts are absent; the
    values themselves are in storage under that URI, not in the literal. *)
Theorem to_literal_returns_blob_reference ctx python_val python_type expected lit ctx' :
  to_literal python_val python_type expected ctx = (inr lit, ctx') ->
  exists path : string,
    lit = mkLiteral
            (Some (mkScalar None
                     (Some (mkBlob
                              (mkBlobMetadata (BlobType.mk "JSONL" BlobType.SINGLE))
                              path))))
            None None
    /\ path = random_paths ctx (paths_drawn ctx)
    /\ file_access ctx' !! path = Some python_val.
Proof.
  rewrite to_literal_run. intros Hrun.
  destruct (write_failure (py_sys ctx) python_val) eqn:Hfail; [discriminate |].
  rewrite (written_all _ _ Hfail) in Hrun.
  destruct python_val as [| json_val rest]; [discriminate |].
  injection Hrun as <- <-. eexists. split; [reflexivity |]. split; [reflexivity |].
  cbn. apply lookup_insert_eq.
Qed.

Lemma to_literal_returns_blob_reference_witness :
  exists path : string,
    JSONL_blob "s3://my-s3-bucket/data/0"
    = mkLiteral
        (Some (mkScalar None
                 (Some (mkBlob
                          (mkBlobMetadata (BlobType.mk "JSONL" BlobType.SINGLE))
                          path))))
        None None
    /\ path = "s3://my-s3-bucket/data/0"
    /\ ({[ "s3://my-s3-bucket/data/0" := Examples.records ]}
          : gmap string (list JSON)) !! path
       = Some Examples.records.
Proof.
  assert (Hrun : to_literal Examples.records JSON_t (get_literal_type JSON_t)
                   Examples.empty_storage
                 = (inr (JSONL_blob "s3://my-s3-bucket/data/0"),
                    mkFlyteContext
                      {[ "s3://my-s3-bucket/data/0" := Examples.records ]}
                      Examples.raw_output 1 Examples.cpython_defaults))
    by (vm_compute; reflexivity).
  exact (to_literal_returns_blob_reference _ _ _ _ _ _ Hrun).
Defined.

(** C9. When [to_literal] raises on an empty iterator, the remote file has
    been created by then and it stays: the context the exception leaves
    behind holds an empty file under the path drawn, and every other file
    is as before. *)
Theorem to_literal_empty_leaves_file ctx python_type expected :
  let path := random_paths ctx (paths_drawn ctx) in
  let run := to_literal [] python_type expected ctx in
  run.1 = inl (ValueError [Text "The iterator is empty."])
  /\ file_access run.2 !! path = Some []
  /\ file_access run.2 = <[path := []]> (file_access ctx).
Proof.
  intros path run. subst run. rewrite to_literal_run. cbn. fold path.
  split; [done |]. split; [apply lookup_insert_eq | done].
Qed.

End Encode.

(** ** Decoding: [to_python_value]                                        *)

Section Decode.
Import JSONIteratorTransformer.

Lemma to_python_value_no_blob lv expected_python_type ctx :
  scalar lv ≫= scalar_blob = None ->
  to_python_value lv expected_python_type ctx
  = (inl (TypeTransformerFailedError
            [Text "Cannot convert from "; ReprLiteral lv; Text " to ";
             ReprPyType expected_python_type]), ctx).
Proof.
  unfold to_python_value, lv_scalar_blob_uri.
  destruct (scalar lv) as [s |]; cbn; [| done].
  destruct (scalar_blob s); [discriminate | done].
Qed.

Lemma to_python_value_blob lv expected_python_type ctx b :
  scalar lv ≫= scalar_blob = Some b ->
  to_python_value lv expected_python_type ctx
  = match file_access ctx !! uri b with
    | Some lines => (inr (JSONIterator.__init__ (jsonlines.Reader_of lines)), ctx)
    | None => (inl (FileNotFoundError (uri b)), ctx)
    end.
Proof.
  unfold to_python_value, lv_scalar_blob_uri.
  destruct (scalar lv) as [s |]; cbn; [| discriminate].
  destruct (scalar_blob s); [| discriminate].
  intros [= ->]. unfold fs_open_r. run_M.
  by destruct (file_access ctx !! uri b).
Qed.

(** C5, as the claim states it, fails: a literal can hold a scalar blob
    whose URI names no file. [to_python_value] then lets the
    [FileNotFoundError] of [fs.open] through and returns no iterator. *)
Lemma to_python_value_dangling_uri_raises :
  scalar Examples.dangling ≫= scalar_blob
    = Some (mkBlob (mkBlobMetadata (BlobType.mk "JSONL" BlobType.SINGLE))
                   "s3://my-s3-bucket/data/missing")
  /\ to_python_value Examples.dangling JSON_t Examples.empty_storage
     = (inl (FileNotFoundError "s3://my-s3-bucket/data/missing"),
        Examples.empty_storage)
  /\ ~ exists it ctx',
         to_python_value Examples.dangling JSON_t Examples.empty_storage
         = (inr it, ctx').
Proof.
  split; [reflexivity |]. split; [reflexivity |].
  intros (it & ctx' & Hrun). discriminate Hrun.
Qed.

(** C5, as amended. A literal that holds no scalar blob is refused with
    [TypeTransformerFailedError] (the decode error); a literal that holds
    a scalar blob whose URI names a file in storage gives a [JSONIterator]
    on the lines of that file, and nothing is raised. *)
Theorem to_python_value_by_shape ctx lv expected_python_type :
  (scalar lv ≫= scalar_blob = None ->
     to_python_value lv expected_python_type ctx
     = (inl (TypeTransformerFailedError
               [Text "Cannot convert from "; ReprLiteral lv; Text " to ";
                ReprPyType expected_python_type]), ctx))
  /\ (forall b lines,
        scalar lv ≫= scalar_blob = Some b ->
        file_access ctx !! uri b = Some lines ->
        to_python_value lv expected_python_type ctx
        = (inr (JSONIterator.__init__ (jsonlines.Reader_of lines)), ctx)).
Proof.
  split.
  - apply to_python_value_no_blob.
  - intros b lines Hshape Hfile.
    by rewrite (to_python_value_blob _ _ _ b Hshape), Hfile.
Qed.

Lemma to_python_value_by_shape_witness :
  to_python_value Examples.ten (Class "MyInt") Examples.one_file
  = (inl (TypeTransformerFailedError
            [Text "Cannot convert from "; ReprLiteral Examples.ten; Text " to ";
             ReprPyType (Class "MyInt")]), Examples.one_file)
  /\ to_python_value (JSONL_blob "s3://my-s3-bucket/data/0") JSON_t Examples.one_file
     = (inr (JSONIterator.__init__ (jsonlines.Reader_of [JInt 1])),
        Examples.one_file).
Proof.
  split.
  - apply (proj1 (to_python_value_by_shape
                    Examples.one_file Examples.ten (Class "MyInt"))).
    reflexivity.
  - apply (proj2 (to_python_value_by_shape
                    Examples.one_file (JSONL_blob "s3://my-s3-bucket/data/0") JSON_t)
                 (mkBlob (mkBlobMetadata (BlobType.mk "JSONL" BlobType.SINGLE))
                         "s3://my-s3-bucket/data/0")
                 [JInt 1]).
    + reflexivity.
    + reflexivity.
Defined.

End Decode.

(** ** The iterator: exhaustion and closing                               *)

Section Iterator.
Import JSONIterator jsonlines Drive.

Lemma init_closed_only_when_done fp :
  closed_only_when_done (__init__ (Reader_of fp)).
Proof. intros Hclosed. discriminate. Qed.

Lemma next_closed_only_when_done it :
  closed_only_when_done it -> closed_only_when_done (__next__ it).2.
Proof.
  destruct it as [[fp closed] done]. unfold closed_only_when_done. cbn.
  destruct done; [by intros |].
  destruct closed; [intros Hinv; discriminate (Hinv eq_refl) |]. intros _.
  destruct fp as [| [] rest]; cbn; done.
Qed.

Lemma advance_closed_only_when_done k it :
  closed_only_when_done it -> closed_only_when_done (advance k it).
Proof.
  revert it. induction k as [| k IH]; intros it Hinv; [done |].
  cbn. by apply IH, next_closed_only_when_done.
Qed.

Lemma next_no_line it :
  closed_only_when_done it -> r_fp (_reader it) = [] ->
  __next__ it
  = (inl (StopIteration [Text "File handler is exhausted"]),
     mk (mkReader [] true) true).
Proof.
  destruct it as [[fp closed] done]. unfold closed_only_when_done. cbn.
  intros Hinv ->.
  destruct done; [done |]. destruct closed; [by discriminate Hinv |]. done.
Qed.

Lemma next_finished fp :
  __next__ (mk (mkReader fp true) true)
  = (inl (StopIteration [Text "File handler is exhausted"]),
     mk (mkReader fp true) true).
Proof. done. Qed.

Lemma advance_finished k fp :
  advance k (mk (mkReader fp true) true) = mk (mkReader fp true) true.
Proof. induction k as [| k IH]; [done |]. cbn. exact IH. Qed.

Lemma advance_add k m it : advance (k + m) it = advance m (advance k it).
Proof.
  revert it. induction k as [| k IH]; intros it; [done |]. cbn. apply IH.
Qed.

Lemma to_python_value_closed_only_when_done ctx lv expected_python_type it0 ctx' :
  JSONIteratorTransformer.to_python_value lv expected_python_type ctx
    = (inr it0, ctx') ->
  closed_only_when_done it0.
Proof.
  intros Hdecode.
  destruct (scalar lv ≫= scalar_blob) as [b |] eqn:Hshape.
  - rewrite (to_python_value_blob _ _ _ b Hshape) in Hdecode.
    destruct (file_access ctx !! uri b); [| discriminate].
    injection Hdecode as <- _. apply init_closed_only_when_done.
  - rewrite (to_python_value_no_blob _ _ _ Hshape) in Hdecode. discriminate.
Qed.

(** C10, at an input on which the code departs from it. Encode [None]
    and ["a"], decode, and iterate: the first [__next__] raises
    [InvalidLineError], which ends the generator; the second closes the
    reader and raises [StopIteration] although the line ["a"] has not been
    read, and every later call does the same, so that line is never
    yielded. The reader is closed before its source is exhausted. *)
Theorem next_closes_reader_with_line_unread ctx python_type expected :
  exists lit ctx1 it0,
    JSONIteratorTransformer.to_literal [JNone; JStr "a"] python_type expected ctx
      = (inr lit, ctx1)
    /\ JSONIteratorTransformer.to_python_value lit python_type ctx1 = (inr it0, ctx1)
    /\ (__next__ it0).1 = inl (InvalidLineError [Text "line contains null value"])
    /\ r_closed (_reader (advance 1 it0)) = false
    /\ __next__ (advance 1 it0)
       = (inl (StopIteration [Text "File handler is exhausted"]),
          mk (mkReader [JStr "a"] true) true)
    /\ forall m,
         __next__ (advance (2 + m) it0)
         = (inl (StopIteration [Text "File handler is exhausted"]),
            mk (mkReader [JStr "a"] true) true).
Proof.
  rewrite to_literal_run. cbn [write_failure written json.dumps_error json.encode_error].
  eexists _, _, _. split; [reflexivity |].
  rewrite (to_python_value_blob (JSONL_blob _) _ _ _ eq_refl).
  cbn [file_access uri]. rewrite lookup_insert_eq.
  split; [reflexivity |]. split; [reflexivity |]. split; [reflexivity |].
  split; [reflexivity |].
  intros m. rewrite advance_add.
  assert (Hclosed : advance 2 (__init__ (Reader_of [JNone; JStr "a"]))
                    = mk (mkReader [JStr "a"] true) true) by reflexivity.
  by rewrite Hclosed, advance_finished, next_finished.
Qed.

(** X16. Take a [JSONIterator] returned by [to_python_value], after any
    number of calls of [__next__]. Once no line is left unread, the next
    call raises [StopIteration] and leaves the reader closed, and so does
    every call after it. As long as the generator has not finished, the
    reader is open. *)
Theorem next_after_last_line ctx lv expected_python_type it0 ctx' k :
  JSONIteratorTransformer.to_python_value lv expected_python_type ctx
    = (inr it0, ctx') ->
  let it := advance k it0 in
  (r_fp (_reader it) = [] ->
     forall m,
       __next__ (advance m it)
       = (inl (StopIteration [Text "File handler is exhausted"]),
          mk (mkReader [] true) true))
  /\ (_reader_iter_done it = false -> r_closed (_reader it) = false).
Proof.
  intros Hdecode it.
  assert (Hinv : closed_only_when_done it).
  { by eapply advance_closed_only_when_done, to_python_value_closed_only_when_done. }
  split.
  - intros Hfp [| m].
    + by apply next_no_line.
    + cbn [advance]. rewrite (next_no_line it Hinv Hfp). cbn.
      by rewrite advance_finished, next_finished.
  - intros Hrunning. destruct (r_closed (_reader it)) eqn:Hclosed; [| done].
    rewrite (Hinv Hclosed) in Hrunning. discriminate.
Qed.

Lemma next_after_last_line_witness :
  let it0 := __init__ (Reader_of [JInt 1; JStr "a"]) in
  (__next__ it0).1 = inr (JInt 1)
  /\ (__next__ (advance 1 it0)).1 = inr (JStr "a")
  /\ r_closed (_reader (advance 2 it0)) = false
  /\ forall m,
       __next__ (advance m (advance 2 it0))
       = (inl (StopIteration [Text "File handler is exhausted"]),
          mk (mkReader [] true) true).
Proof.
  intros it0.
  assert (Hdecode : JSONIteratorTransformer.to_python_value
                      (JSONL_blob "s3://my-s3-bucket/data/0") JSON_t Examples.two_lines
                    = (inr it0, Examples.two_lines)) by reflexivity.
  pose proof (next_after_last_line _ _ _ _ _ 2 Hdecode) as [Hlast Hopen].
  split; [reflexivity |]. split; [reflexivity |].
  split; [apply Hopen; reflexivity | apply Hlast; reflexivity].
Defined.

(** A value read is the head of the file, and it is not [None]. *)
Lemma next_value v fp :
  v <> JNone ->
  __next__ (mk (mkReader (v :: fp) false) false)
  = (inr v, mk (mkReader fp false) false).
Proof. intros Hv. by destruct v. Qed.




(** C2, at the input on which the code departs from it. [None] is a JSON
    value and [to_literal] writes it, but the reader is iterated with
    [allow_none] off: the first [__next__] of the decoded iterator raises
    [InvalidLineError] instead of yielding [None], and [list(it)] ends in
    that exception. *)
Theorem roundtrip_fails_on_None ctx python_type expected :
  exists lit ctx1 it,
    JSONIteratorTransformer.to_literal [JNone] python_type expected ctx
      = (inr lit, ctx1)
    /\ JSONIteratorTransformer.to_python_value lit python_type ctx1 = (inr it, ctx1)
    /\ (__next__ it).1 = inl (InvalidLineError [Text "line contains null value"])
    /\ collect 2 it
       = Some (inl (InvalidLineError [Text "line contains null value"]),
               mk (mkReader [] false) true).
Proof.
  rewrite to_literal_run. eexists _, _, _. split; [reflexivity |].
  rewrite (to_python_value_blob (JSONL_blob _) _ _ _ eq_refl). cbn.
  rewrite lookup_insert_eq. done.
Qed.

End Iterator.

(** ** Wire type and reverse mapping                                      *)

Section Describe.
Import JSONIteratorTransformer.

(** C3. [get_literal_type] takes the annotation only, never a value, and
    its result does not even depend on the annotation: any two calls
    return the same descriptor, the single-file blob type of format
    JSONL. *)
Theorem get_literal_type_constant (t1 t2 : PyType) :
  get_literal_type t1 = get_literal_type t2
  /\ get_literal_type t1
     = mkLiteralType None None None
         (Some (BlobType.mk "JSONL" BlobType.SINGLE)).
Proof. split; reflexivity. Qed.

(** C4. [guess_python_type] answers [JSON] exactly for the blob types of
    dimensionality SINGLE and format JSONL, and raises [ValueError] for
    every other wire type. *)
Theorem guess_python_type_iff_jsonl_blob (literal_type : LiteralType) :
  (guess_python_type literal_type = inr JSON_t <->
     exists b, blob literal_type = Some b
               /\ BlobType.dimensionality b = BlobType.SINGLE
               /\ BlobType.format b = "JSONL")
  /\ (guess_python_type literal_type = inr JSON_t
      \/ guess_python_type literal_type
         = inl (ValueError [Text "Transformer "; ReprSelf;
                            Text " cannot reverse "; ReprLiteralType literal_type])).
Proof.
  unfold guess_python_type, JSON_ITERATOR_FORMAT.
  destruct (blob literal_type) as [[fmt dim] |]; cbn.
  - destruct (bool_decide_reflect (dim = BlobType.SINGLE)) as [Hdim | Hdim];
      destruct (bool_decide_reflect (fmt = "JSONL")) as [Hfmt | Hfmt]; cbn;
      (split; [split | by auto]); try done.
    + intros _. by exists (BlobType.mk fmt dim).
    + intros (b & [= <-] & _ & Hf). by destruct Hfmt.
    + intros (b & [= <-] & Hd & _). by destruct Hdim.
    + intros (b & [= <-] & Hd & _). by destruct Hdim.
  - split; [split |]; [done | | by right]. by intros (b & Hb & _).
Qed.

End Describe.

(** ** Registry                                                           *)

Section Registry.
Import TypeEngine.

Lemma resolve_exact host_type r e :
  _REGISTRY r !! host_type = Some e ->
  resolve host_type r = inr (transformer_instance e).
Proof. intros Hexact. unfold resolve. by rewrite Hexact. Qed.

Lemma register_publishes transformer r :
  (forall e, _REGISTRY r !! python_type transformer = Some e ->
             non_overridable e = false) ->
  _REGISTRY (register transformer r) !! python_type transformer
  = Some (mkEntry transformer false false).
Proof.
  intros Hfree. unfold register.
  destruct (_REGISTRY r !! python_type transformer) as [e |] eqn:Hold.
  - rewrite (Hfree e eq_refl). cbn. apply lookup_insert_eq.
  - cbn. apply lookup_insert_eq.
Qed.

Lemma register_other transformer r host_type :
  host_type <> python_type transformer ->
  _REGISTRY (register transformer r) !! host_type = _REGISTRY r !! host_type.
Proof.
  intros Hne. unfold register.
  destruct (_REGISTRY r !! python_type transformer) as [e |];
    [destruct (non_overridable e) |];
    cbn; try done; by apply lookup_insert_ne.
Qed.

Lemma unregister_other host_type' r host_type :
  host_type <> host_type' ->
  _REGISTRY (unregister host_type' r) !! host_type = _REGISTRY r !! host_type.
Proof. intros Hne. cbn. by apply lookup_delete_ne, not_eq_sym. Qed.

Lemma changes_keep host_type e (later : list change) r :
  Forall (fun c => change_key c <> host_type) later ->
  _REGISTRY r !! host_type = Some e ->
  _REGISTRY (foldl apply_change r later) !! host_type = Some e.
Proof.
  intros Hlater. revert r.
  induction Hlater as [| c later Hc _ IH]; intros r Hr; [done |].
  cbn [foldl]. apply IH.
  destruct c as [transformer | host_type']; cbn [apply_change change_key] in Hc |- *.
  - rewrite register_other; [done | by apply not_eq_sym].
  - rewrite unregister_other; [done | by apply not_eq_sym].
Qed.

(** C6, as the claim states it, fails in three ways. A protected built-in
    is not replaced: the transformer registered for [int] does not take
    the key and [resolve] still returns the built-in. And a replacement
    does not last for every later [resolve]: once the key is unregistered
    [resolve] finds no transformer, and once it is registered again
    [resolve] returns the newest transformer. *)
Lemma resolve_after_register_counterexamples :
  (_REGISTRY Examples.defaults !! python_type Examples.int_override
     = Some Examples.builtin_int
   /\ resolve (Class "int") (register Examples.int_override Examples.defaults)
      = inr (transformer_instance Examples.builtin_int)
   /\ resolve (Class "int") (register Examples.int_override Examples.defaults)
      <> inr Examples.int_override)
  /\ (let r := register Examples.MyIntOverride
                 (register Examples.MyIntAsyncTransformer Examples.no_transformers) in
      resolve Examples.MyInt r = inr Examples.MyIntOverride
      /\ resolve Examples.MyInt (unregister Examples.MyInt r)
         = inl (UnsupportedTypeError Examples.MyInt)
      /\ resolve Examples.MyInt (register Examples.MyIntThird r)
         = inr Examples.MyIntThird).
Proof.
  split.
  - assert (Hold : _REGISTRY Examples.defaults !! python_type Examples.int_override
                   = Some Examples.builtin_int) by (vm_compute; reflexivity).
    split; [exact Hold |].
    unfold register. rewrite Hold. cbn [Examples.builtin_int non_overridable].
    change (Class "int") with (python_type Examples.int_override).
    rewrite (resolve_exact _ _ _ Hold). split; [reflexivity | discriminate].
  - intros r. split; [| split]; vm_compute; reflexivity.
Qed.

(** C6, as amended. Let [t1] own an exact key and not be marked
    non-overridable. After [register t2] for the same key, and whatever is
    registered or unregistered afterwards for other keys, the key is owned
    by [t2] alone and [resolve] returns [t2], not [t1]. *)
Theorem register_replaces_overridable r t1 t2 e1 (later : list change) :
  _REGISTRY r !! python_type t2 = Some e1 ->
  transformer_instance e1 = t1 ->
  non_overridable e1 = false ->
  Forall (fun c => change_key c <> python_type t2) later ->
  let r' := foldl apply_change (register t2 r) later in
  resolve (python_type t2) r' = inr t2
  /\ (t1 <> t2 -> resolve (python_type t2) r' <> inr t1)
  /\ forall e, _REGISTRY r' !! python_type t2 = Some e -> transformer_instance e = t2.
Proof.
  intros Hold Ht1 Hfree Hlater r'.
  assert (Hnew : _REGISTRY r' !! python_type t2 = Some (mkEntry t2 false false)).
  { apply changes_keep; [done |]. apply register_publishes.
    intros e He. congruence. }
  rewrite (resolve_exact _ _ _ Hnew). cbn. split; [done |]. split.
  - intros Hne [= Heq]. by apply Hne.
  - intros e He. rewrite Hnew in He. by injection He as <-.
Qed.

Lemma register_replaces_overridable_witness :
  let r := register Examples.MyIntAsyncTransformer Examples.no_transformers in
  let r' := unregister (Class "int")
              (import_json_iterator (register Examples.MyIntOverride r)) in
  resolve Examples.MyInt r = inr Examples.MyIntAsyncTransformer
  /\ resolve Examples.MyInt r' = inr Examples.MyIntOverride
  /\ resolve Examples.MyInt r' <> inr Examples.MyIntAsyncTransformer.
Proof.
  intros r r'.
  assert (Hold : _REGISTRY r !! python_type Examples.MyIntOverride
                 = Some (mkEntry Examples.MyIntAsyncTransformer false false))
    by (vm_compute; reflexivity).
  assert (Hlater : Forall (fun c => change_key c <> python_type Examples.MyIntOverride)
                          [Register JSONIteratorTransformer_instance;
                           Unregister (Class "int")])
    by (repeat constructor; discriminate).
  destruct (register_replaces_overridable
              r Examples.MyIntAsyncTransformer Examples.MyIntOverride _
              [Register JSONIteratorTransformer_instance; Unregister (Class "int")]
              Hold eq_refl eq_refl Hlater)
    as (Hnew & Hnot & _).
  split; [exact (resolve_exact _ _ _ Hold) |]. split; [exact Hnew |].
  apply Hnot. discriminate.
Defined.

End Registry.

(* ===================================================================== *)
(** * Further properties of the transformer                               *)
(* ===================================================================== *)

(** ** Encoding and storage                                               *)

Section EncodeMore.
Import JSONIteratorTransformer JSONIterator jsonlines Drive.









(** X12. [to_literal] looks at neither [python_type] nor [expected]: it
    writes the same file and returns the same JSONL blob literal whatever
    type the caller asks for. *)
Theorem to_literal_ignores_types ctx (python_val : list JSON) ty1 ty2 lt1 lt2 :
  to_literal python_val ty1 lt1 ctx = to_literal python_val ty2 lt2 ctx.
Proof. by rewrite !to_literal_run. Qed.

(** X11. A literal returned by [to_literal] goes with the wire type that
    [get_literal_type] gives: its blob carries that very blob type, which
    [guess_python_type] maps back to [JSON]. *)
Theorem to_literal_matches_literal_type ctx (python_val : list JSON) python_type
    expected lit ctx' :
  to_literal python_val python_type expected ctx = (inr lit, ctx') ->
  exists b,
    scalar lit ≫= scalar_blob = Some b
    /\ blob (get_literal_type python_type) = Some (type (metadata b))
    /\ guess_python_type (LiteralType_blob (type (metadata b))) = inr JSON_t.
Proof.
  rewrite to_literal_run. intros Hrun.
  destruct (write_failure (py_sys ctx) python_val); [discriminate |].
  destruct python_val as [| json_val rest]; [discriminate |].
  injection Hrun as <- _. eexists. split; [reflexivity |]. by split.
Qed.

Lemma to_literal_matches_literal_type_witness :
  exists b,
    scalar (JSONL_blob "s3://my-s3-bucket/data/0") ≫= scalar_blob = Some b
    /\ blob (get_literal_type Iterator_JSON) = Some (type (metadata b))
    /\ guess_python_type (LiteralType_blob (type (metadata b))) = inr JSON_t.
Proof.
  assert (Hrun : to_literal [JStr "a"] Iterator_JSON (get_literal_type Iterator_JSON)
                   Examples.empty_storage
                 = (inr (JSONL_blob "s3://my-s3-bucket/data/0"),
                    mkFlyteContext {[ "s3://my-s3-bucket/data/0" := [JStr "a"] ]}
                                   Examples.raw_output 1 Examples.cpython_defaults))
    by (vm_compute; reflexivity).
  exact (to_literal_matches_literal_type _ _ _ _ _ _ Hrun).
Defined.

(** X10. Describing a type and mapping the wire type back does not return
    the type the transformer is registered for: for every annotation the
    answer is the alias [JSON], never [Iterator[JSON]]. *)
Theorem guess_of_get_literal_type (t : PyType) :
  guess_python_type (get_literal_type t) = inr JSON_t
  /\ guess_python_type (get_literal_type t)
     <> inr (TypeEngine.python_type JSONIteratorTransformer_instance).
Proof. split; [reflexivity | discriminate]. Qed.

End EncodeMore.

(** ** Decoding and iterating                                             *)

Section DecodeMore.
Import JSONIteratorTransformer JSONIterator jsonlines Drive.

(** X4. [to_python_value] only reads: whatever the literal, and whether it
    returns or raises, the context is left as it was. *)
Theorem to_python_value_read_only lv expected_python_type ctx :
  (to_python_value lv expected_python_type ctx).2 = ctx.
Proof.
  destruct (scalar lv ≫= scalar_blob) as [b |] eqn:Hshape.
  - rewrite (to_python_value_blob _ _ _ b Hshape).
    by destruct (file_access ctx !! uri b).
  - by rewrite (to_python_value_no_blob _ _ _ Hshape).
Qed.

(** X5. [to_python_value] checks neither the blob's format and
    dimensionality nor the expected type: two literals holding scalar
    blobs with the same URI decode alike. *)
Theorem to_python_value_only_reads_uri ctx lv1 lv2 t1 t2 b1 b2 :
  scalar lv1 ≫= scalar_blob = Some b1 ->
  scalar lv2 ≫= scalar_blob = Some b2 ->
  uri b1 = uri b2 ->
  to_python_value lv1 t1 ctx = to_python_value lv2 t2 ctx.
Proof.
  intros H1 H2 Huri.
  by rewrite (to_python_value_blob _ _ _ b1 H1), (to_python_value_blob _ _ _ b2 H2), Huri.
Qed.

Lemma to_python_value_only_reads_uri_witness :
  to_python_value (JSONL_blob "s3://my-s3-bucket/data/0") JSON_t Examples.one_file
  = to_python_value
      (Literal_scalar
         (Scalar_blob
            (mkBlob (mkBlobMetadata (BlobType.mk "csv" BlobType.MULTIPART))
                    "s3://my-s3-bucket/data/0")))
      (Class "MyInt") Examples.one_file.
Proof.
  apply (to_python_value_only_reads_uri
           Examples.one_file _ _ JSON_t (Class "MyInt")
           (mkBlob (mkBlobMetadata (BlobType.mk "JSONL" BlobType.SINGLE))
                   "s3://my-s3-bucket/data/0")
           (mkBlob (mkBlobMetadata (BlobType.mk "csv" BlobType.MULTIPART))
                   "s3://my-s3-bucket/data/0")); reflexivity.
Defined.






(** X8. An iterator is finite: among the first [n + 1] calls of
    [__next__], where [n] lines are left to read, one raises. *)
Theorem next_raises_within_length it :
  exists k e,
    k <= length (r_fp (_reader it))
    /\ (__next__ (advance k it)).1 = inl e.
Proof.
  destruct it as [[fp closed] done]. cbn [_reader r_fp].
  destruct done; [by exists 0, (StopIteration [Text "File handler is exhausted"]); split; [lia |] |].
  destruct closed; [by exists 0, (RuntimeError [Text "reader is closed"]); split; [lia |] |].
  induction fp as [| v rest IH].
  - by exists 0, (StopIteration [Text "File handler is exhausted"]).
  - destruct IH as (k & e & Hk & He).
    assert (Hcase : v = JNone \/ v <> JNone) by (destruct v; auto).
    destruct Hcase as [-> | Hv].
    + exists 0, (InvalidLineError [Text "line contains null value"]).
      split; [cbn; lia | done].
    + exists (S k), e. split; [cbn; lia |].
      cbn [advance]. by rewrite next_value.
Qed.



End DecodeMore.

(** ** The transformer of test_list.py                                    *)

Section MyIntTransformer.
Import TestList TestList.MyIntAsyncTransformer.

(** X13. Encoding a [MyInt] and decoding the literal gives back a [MyInt]
    that [__eq__] finds equal to the first; the literal is a scalar
    primitive holding the integer. *)
Theorem MyInt_roundtrip (python_val : MyInt) t1 t2 lt :
  exists decoded,
    async_to_python_value (async_to_literal python_val t1 lt) t2 = inr decoded
    /\ __eq__ decoded (Obj_MyInt python_val) = true
    /\ scalar (async_to_literal python_val t1 lt) ≫= primitive
       = Some (mkPrimitive (val python_val) None None).
Proof.
  exists python_val. destruct python_val as [x]. split; [reflexivity |].
  split; [| reflexivity]. cbn. by apply bool_decide_eq_true.
Qed.

(** X14. [async_to_python_value] by the shape of the literal: without a
    scalar primitive the [AttributeError] leaves uncaught; with one, a
    [MyInt] is built from its [integer] field, which is [None] when the
    primitive holds something else. *)
Theorem MyInt_decode_by_shape lv expected_python_type :
  (scalar lv ≫= primitive = None ->
     async_to_python_value lv expected_python_type = inl AttributeError)
  /\ (forall p, scalar lv ≫= primitive = Some p ->
        async_to_python_value lv expected_python_type = inr (mkMyInt (integer p))).
Proof.
  unfold async_to_python_value. destruct (scalar lv) as [s |]; cbn.
  - destruct (primitive s) as [p |]; split; try done. by intros p' [= <-].
  - by split.
Qed.

Lemma MyInt_decode_by_shape_witness :
  async_to_python_value (JSONL_blob "s3://my-s3-bucket/data/0") (Class "MyInt")
    = inl AttributeError
  /\ async_to_python_value
       (Literal_scalar (Scalar_primitive (mkPrimitive None (Some "x") None)))
       (Class "MyInt")
     = inr (mkMyInt None).
Proof.
  split.
  - apply (proj1 (MyInt_decode_by_shape _ _)). reflexivity.
  - apply (proj2 (MyInt_decode_by_shape _ _) (mkPrimitive None (Some "x") None)).
    reflexivity.
Defined.

(** X15. The two transformers refuse each other's literals: a literal
    built by [MyIntAsyncTransformer] makes
    [JSONIteratorTransformer.to_python_value] raise
    [TypeTransformerFailedError] with storage untouched, and a literal
    returned by [JSONIteratorTransformer.to_literal] makes
    [async_to_python_value] raise [AttributeError]. *)
Theorem transformers_refuse_each_other ctx (m : MyInt) (python_val : list JSON)
    t1 t2 lt1 lt2 :
  JSONIteratorTransformer.to_python_value (async_to_literal m t1 lt1) t2 ctx
  = (inl (TypeTransformerFailedError
            [Text "Cannot convert from "; ReprLiteral (async_to_literal m t1 lt1);
             Text " to "; ReprPyType t2]), ctx)
  /\ forall lit ctx',
       JSONIteratorTransformer.to_literal python_val t1 lt2 ctx = (inr lit, ctx') ->
       async_to_python_value lit t2 = inl AttributeError.
Proof.
  split; [reflexivity |].
  intros lit ctx'. rewrite to_literal_run.
  destruct (write_failure (py_sys ctx) python_val); [discriminate |].
  destruct python_val as [| json_val rest]; [discriminate |].
  by intros [= <- _].
Qed.

Lemma transformers_refuse_each_other_witness :
  JSONIteratorTransformer.to_python_value Examples.ten (Class "MyInt") Examples.one_file
  = (inl (TypeTransformerFailedError
            [Text "Cannot convert from "; ReprLiteral Examples.ten;
             Text " to "; ReprPyType (Class "MyInt")]), Examples.one_file)
  /\ async_to_python_value (JSONL_blob "s3://my-s3-bucket/data/1") (Class "MyInt")
     = inl AttributeError.
Proof.
  destruct (transformers_refuse_each_other
              Examples.one_file (mkMyInt (Some 10%Z)) [JStr "a"]
              (Class "MyInt") (Class "MyInt")
              (LiteralType_simple INTEGER) (LiteralType_simple INTEGER))
    as [Hjson Hmyint].
  split; [exact Hjson |].
  apply (Hmyint (JSONL_blob "s3://my-s3-bucket/data/1")
                (mkFlyteContext
                   (<["s3://my-s3-bucket/data/1" := [JStr "a"]]>
                      {[ "s3://my-s3-bucket/data/0" := [JInt 1] ]})
                   Examples.raw_output 2 Examples.cpython_defaults)).
  vm_compute. reflexivity.
Defined.

End MyIntTransformer.
